(** * meta/metautil.py: Gradle specifiers, format-version gates, package data

    A shallow embedding of [meta/metautil.py].  Python [str] values are
    modelled as [string] (the operations used by the module, splitting and
    replacing on the ASCII characters [@], [:] and [.], and concatenation,
    act the same way on the UTF-8 bytes as on the code points), Python [int]
    as [Z], [None]-able attributes as [option], and raised exceptions as the
    left summand of [result]. *)

From Stdlib Require Import String Ascii List ZArith Lia Bool.
From Stdlib Require Import DecimalString DecimalZ DecimalPos.
Import ListNotations.
Local Open Scope string_scope.

(** ** Exceptions and the error monad *)

(** The exception classes that the modelled code raises or catches. *)
Inductive exn : Type :=
| IndexError
| UnknownVersionException (message : string)
| EnvironmentError (strerror : string)
| OtherException (description : string).

Definition result (A : Type) : Type := (exn + A)%type.

Definition ret {A} (x : A) : result A := inr x.
Definition raise {A} (e : exn) : result A := inl e.
Definition bind {A B} (m : result A) (k : A -> result B) : result B :=
  match m with
  | inl e => inl e
  | inr x => k x
  end.

Declare Scope py_scope.
Delimit Scope py_scope with py.
Notation "x <- m ;; k" := (bind m (fun x => k))
  (at level 61, m at next level, right associativity) : py_scope.
Notation "m ;;; k" := (bind m (fun _ => k))
  (at level 61, right associativity) : py_scope.

(** ** The fragment of [str] and [list] that the module uses *)

Module PyStr.

(** [s.split(sep)] for a one-character separator: every occurrence of
    [sep] cuts, and the result always has at least one element. *)
Fixpoint split (sep : ascii) (s : string) : list string :=
  match s with
  | EmptyString => [EmptyString]
  | String c s' =>
      if Ascii.eqb c sep then EmptyString :: split sep s'
      else match split sep s' with
           | [] => [String c EmptyString]
           | x :: xs => String c x :: xs
           end
  end.

(** [s.replace(old, new)] for one-character [old] and [new]. *)
Fixpoint replace (old new : ascii) (s : string) : string :=
  match s with
  | EmptyString => EmptyString
  | String c s' => String (if Ascii.eqb c old then new else c) (replace old new s')
  end.

(** [sep.join(l)]. *)
Fixpoint join (sep : ascii) (l : list string) : string :=
  match l with
  | [] => EmptyString
  | [x] => x
  | x :: rest => x ++ String sep (join sep rest)
  end.

(** [s.count(c)]. *)
Fixpoint count (c : ascii) (s : string) : nat :=
  match s with
  | EmptyString => 0
  | String d s' => (if Ascii.eqb d c then 1 else 0) + count c s'
  end.

(** [c in s]. *)
Fixpoint contains (c : ascii) (s : string) : bool :=
  match s with
  | EmptyString => false
  | String d s' => Ascii.eqb d c || contains c s'
  end.

(** [l[i]]: out of range raises [IndexError]. *)
Definition subscript {A} (l : list A) (i : nat) : result A :=
  match nth_error l i with
  | Some x => ret x
  | None => raise IndexError
  end.

(** ["%d" % n]. *)
Definition format_d (n : Z) : string := NilZero.string_of_int (Z.to_int n).

(** Truthiness of an attribute that holds [None] or a [str]. *)
Definition truthy (o : option string) : bool :=
  match o with
  | None => false
  | Some s => negb (String.eqb s "")
  end.

(** [a == b] on values that are [None] or a [str]. *)
Definition opt_eqb (a b : option string) : bool :=
  match a, b with
  | None, None => true
  | Some x, Some y => String.eqb x y
  | _, _ => false
  end.

End PyStr.

(** ** class GradleSpecifier *)

Module GradleSpecifier.
Import PyStr.
Local Open Scope py_scope.

Record t : Type := mk {
  group : string;
  artifact : string;
  version : string;
  extension : string;
  classifier : option string
}.

(** [GradleSpecifier(name)]. *)
Definition __init__ (name : string) : result t :=
  let atSplit := split "@" name in
  atSplit0 <- subscript atSplit 0 ;;
  let components := split ":" atSplit0 in
  group <- subscript components 0 ;;
  artifact <- subscript components 1 ;;
  version <- subscript components 2 ;;
  extension <- (if Nat.eqb (length atSplit) 2 then subscript atSplit 1
                else ret "jar") ;;
  classifier <- (if Nat.eqb (length components) 4
                 then (c <- subscript components 3 ;; ret (Some c))
                 else ret None) ;;
  ret (mk group artifact version extension classifier).

Definition toString (self : t) : string :=
  let extensionStr :=
    if negb (String.eqb (extension self) "jar") then "@" ++ extension self
    else "" in
  match truthy (classifier self), classifier self with
  | true, Some c =>
      group self ++ ":" ++ artifact self ++ ":" ++ version self ++ ":" ++ c
        ++ extensionStr
  | _, _ =>
      group self ++ ":" ++ artifact self ++ ":" ++ version self ++ extensionStr
  end.

Definition getFilename (self : t) : string :=
  match truthy (classifier self), classifier self with
  | true, Some c =>
      artifact self ++ "-" ++ version self ++ "-" ++ c ++ "." ++ extension self
  | _, _ =>
      artifact self ++ "-" ++ version self ++ "." ++ extension self
  end.

Definition getBase (self : t) : string :=
  replace "." "/" (group self) ++ "/" ++ artifact self ++ "/" ++ version self ++ "/".

Definition getPath (self : t) : string :=
  getBase self ++ getFilename self.

Definition __eq__ (self other : t) : bool :=
  String.eqb (group self) (group other)
  && String.eqb (artifact self) (artifact other)
  && String.eqb (version self) (version other)
  && opt_eqb (classifier self) (classifier other).

Definition __ne__ (self other : t) : bool := negb (__eq__ self other).

(** [self.toString().__hash__()]; the hash of a [str] is the interpreter's
    and is taken as the argument [str_hash]. *)
Definition __hash__ (str_hash : string -> Z) (self : t) : Z :=
  str_hash (toString self).

End GradleSpecifier.

(** ** Format-version gates *)

Local Open Scope Z_scope.
Local Open Scope py_scope.

Definition validateSupportedMojangVersion (version : Z) : result unit :=
  let supportedVersion := 21 in
  if version >? supportedVersion then
    raise (UnknownVersionException
             ("Unsupported Mojang format version: " ++ PyStr.format_d version
              ++ ". Max supported is: " ++ PyStr.format_d supportedVersion))
  else ret tt.

Definition CurrentPolyMCFormatVersion : Z := 1.

Definition validateSupportedPolyMCVersion (version : Z) : result unit :=
  if version >? CurrentPolyMCFormatVersion then
    raise (UnknownVersionException
             ("Unsupported PolyMC format version: " ++ PyStr.format_d version
              ++ ". Max supported is: " ++ PyStr.format_d CurrentPolyMCFormatVersion))
  else ret tt.

(** The declaration of an [IntegerProperty]: the arguments [default] and
    [validators] that the module passes to it. *)
Record IntegerProperty : Type := {
  default : option Z;
  validators : Z -> result unit
}.

(** [MojangVersionFile.minimumLauncherVersion]. *)
Definition minimumLauncherVersion : IntegerProperty :=
  {| default := None; validators := validateSupportedMojangVersion |}.

(** [VersionedJsonObject.formatVersion]. *)
Definition formatVersion : IntegerProperty :=
  {| default := Some CurrentPolyMCFormatVersion;
     validators := validateSupportedPolyMCVersion |}.

(** Modelled from the spec: the object-mapping engine [meta/jsonobject] that
    populates a declared field while decoding is not among the sources.  An
    absent field ([raw = None]) takes the declared default, and the
    validator hook of the field runs on the value the field ends up with,
    unless that value is [None]. *)
Definition decode_field (p : IntegerProperty) (raw : option Z) : result (option Z) :=
  let value := match raw with
               | Some v => Some v
               | None => default p
               end in
  match value with
  | Some v => validators p v ;;; ret (Some v)
  | None => ret None
  end.

(** ** Persistence of the shared package data *)

Record PolyMCSharedPackageData : Type := {
  pkg_formatVersion : Z;
  pkg_name : string;
  uid : string;
  recommended : option (list string);
  authors : option (list string);
  description : option string;
  projectUrl : option string
}.

(** What the process can observe of its surroundings: the files, by path,
    and the lines printed on standard output. *)
Record World : Type := {
  files : list (string * string);
  stdout : list string
}.

(** Computations that may raise and that act on the world. *)
Definition IO (A : Type) : Type := World -> result A * World.

Definition io_ret {A} (x : A) : IO A := fun w => (inr x, w).
Definition io_bind {A B} (m : IO A) (k : A -> IO B) : IO B :=
  fun w => match m w with
           | (inl e, w') => (inl e, w')
           | (inr x, w') => k x w'
           end.
Definition io_lift {A} (r : result A) : IO A := fun w => (r, w).

(** [print(a, b)]: one line, the two arguments separated by a blank. *)
Definition print2 (a b : string) : IO unit :=
  fun w => (inr tt, {| files := files w; stdout := (stdout w ++ [(a ++ " " ++ b)%string])%list |}).

(** [try: body except EnvironmentError as e: handler(e)]. *)
Definition try_except_EnvironmentError {A} (body : IO A) (handler : string -> IO A) : IO A :=
  fun w => match body w with
           | (inl (EnvironmentError e), w') => handler e w'
           | r => r
           end.

(** The operations of the interpreter and of the operating system that
    [write] calls: opening a path for writing, writing text to the open
    file, closing it, and the encoding of the object ([self.to_json()]
    followed by the serialisation of [json.dump] with sorted keys and an
    indentation of 4). *)
Record Runtime : Type := {
  open_w : string -> IO string;
  file_write : string -> string -> IO unit;
  file_close : string -> IO unit;
  dumps_sorted_indent4 : PolyMCSharedPackageData -> result string
}.

(** [with open(path, 'w') as file: body(file)]: the file is closed whether
    or not the body raises; an exception raised while closing replaces the
    one of the body. *)
Definition with_open_w {A} (rt : Runtime) (path : string) (body : string -> IO A) : IO A :=
  io_bind (open_w rt path) (fun file w =>
    match body file w with
    | (inl e, w') =>
        match file_close rt file w' with
        | (inl e', w'') => (inl e', w'')
        | (inr _, w'') => (inl e, w'')
        end
    | (inr x, w') => io_bind (file_close rt file) (fun _ => io_ret x) w'
    end).

Definition package_json_path (PMC_DIR : string) (uid : string) : string :=
  PMC_DIR ++ "/" ++ uid ++ "/package.json".

(** The body of the [try] statement of [PolyMCSharedPackageData.write]. *)
Definition write_body (rt : Runtime) (PMC_DIR : string) (self : PolyMCSharedPackageData)
  : IO unit :=
  with_open_w rt (package_json_path PMC_DIR (uid self)) (fun file =>
    io_bind (io_lift (dumps_sorted_indent4 rt self)) (fun text =>
    file_write rt file text)).

(** [PolyMCSharedPackageData.write]. *)
Definition write (rt : Runtime) (PMC_DIR : string) (self : PolyMCSharedPackageData)
  : IO unit :=
  try_except_EnvironmentError
    (write_body rt PMC_DIR self)
    (fun e => print2 ("Error while trying to save shared packaged data for "
                        ++ uid self ++ ":") e).

Close Scope Z_scope.

(** ** Notions the statements below are phrased with *)

(** The part of [s] before its first occurrence of [sep] (all of [s] when
    there is none). *)
Fixpoint before (sep : ascii) (s : string) : string :=
  match s with
  | EmptyString => EmptyString
  | String c s' => if Ascii.eqb c sep then EmptyString else String c (before sep s')
  end.

(** The [:]-separated segments of the part of a coordinate string before
    any [@] suffix. *)
Definition segments (s : string) : list string :=
  PyStr.split ":" (before "@" s).

(** [s] without a final ["@jar"]: the normalised form of a coordinate
    string, in which the explicit default extension is dropped. *)
Fixpoint strip_jar_suffix (s : string) : string :=
  match s with
  | EmptyString => EmptyString
  | String c s' => if String.eqb s "@jar" then EmptyString
                   else String c (strip_jar_suffix s')
  end.

(** The documented shape [group:artifact:version[:classifier][@extension]]:
    at most one [@], three or four segments before it, and a classifier
    that is not empty when there is one. *)
Definition documented_shape (s : string) : bool :=
  Nat.leb (PyStr.count "@" s) 1
  && Nat.leb 3 (length (segments s))
  && Nat.leb (length (segments s)) 4
  && match nth_error (segments s) 3 with
     | Some k => negb (String.eqb k "")
     | None => true
     end.

(** What the constructor leaves in [extension]. *)
Definition extension_of (s : string) : string :=
  match PyStr.split "@" s with
  | [_; e] => e
  | _ => "jar"
  end.

(** ["%d"] read back: the integer that a decimal numeral denotes. *)
Definition read_d (s : string) : option Z :=
  option_map Z.of_int (NilZero.int_of_string s).

(** The group as a directory: its [.]-separated parts joined by [/]. *)
Definition group_directory (g : string) : string :=
  PyStr.join "/" (PyStr.split "." g).

(** The optional [-classifier] part of a file name: there when the
    classifier is a string that is not empty. *)
Definition dash_classifier (k : option string) : string :=
  match k with
  | Some k => if String.eqb k "" then "" else "-" ++ k
  | None => ""
  end.

(** The line that [write] prints for an I/O failure described by [e]. *)
Definition save_diagnostic (self : PolyMCSharedPackageData) (e : string) : string :=
  "Error while trying to save shared packaged data for " ++ uid self ++ ": " ++ e.

(** The world after one more line on standard output. *)
Definition printed (w : World) (line : string) : World :=
  {| files := files w; stdout := (stdout w ++ [line])%list |}.

(** A string hash in the style of a polynomial rolling hash, to run
    [__hash__] on. *)
Fixpoint poly_hash (s : string) : Z :=
  match s with
  | EmptyString => 0%Z
  | String c s' => (Z.of_nat (nat_of_ascii c) + 31 * poly_hash s')%Z
  end.

(** Two runtimes to run [write] on.  On the first every path is read-only:
    opening fails with [EnvironmentError].  On the second files live in
    memory and no operation fails. *)
Definition readonly_runtime : Runtime :=
  {| open_w := fun path w =>
       (inl (EnvironmentError ("[Errno 13] Permission denied: '" ++ path ++ "'")), w);
     file_write := fun _ _ w => (inr tt, w);
     file_close := fun _ w => (inr tt, w);
     dumps_sorted_indent4 := fun d => inr ("{uid: " ++ uid d ++ "}") |}.

Definition memory_runtime : Runtime :=
  {| open_w := fun path w =>
       (inr path, {| files := (path, "") :: files w; stdout := stdout w |});
     file_write := fun path text w =>
       (inr tt, {| files := (path, text) :: files w; stdout := stdout w |});
     file_close := fun _ w => (inr tt, w);
     dumps_sorted_indent4 := fun d => inr ("{uid: " ++ uid d ++ "}") |}.

Definition example_package : PolyMCSharedPackageData :=
  {| pkg_formatVersion := 1; pkg_name := "Minecraft"; uid := "net.minecraft";
     recommended := None; authors := None; description := None; projectUrl := None |}.

Definition empty_world : World := {| files := []; stdout := [] |}.

(** ** The rest of class GradleSpecifier, and its property adapter *)

(** [a < b] on [str]: the lexicographic order of the character codes (on
    UTF-8 bytes this is the order of the code points). *)
Fixpoint str_ltb (a b : string) : bool :=
  match a, b with
  | _, EmptyString => false
  | EmptyString, String _ _ => true
  | String x a', String y b' =>
      if Nat.ltb (nat_of_ascii x) (nat_of_ascii y) then true
      else if Ascii.eqb x y then str_ltb a' b' else false
  end.

Definition __lt__ (self other : GradleSpecifier.t) : bool :=
  str_ltb (GradleSpecifier.toString self) (GradleSpecifier.toString other).

Definition __repr__ (self : GradleSpecifier.t) : string :=
  "GradleSpecifier('" ++ GradleSpecifier.toString self ++ "')".

Definition isLwjgl (self : GradleSpecifier.t) : bool :=
  existsb (String.eqb (GradleSpecifier.group self))
          ["org.lwjgl"; "org.lwjgl.lwjgl"; "net.java.jinput"; "net.java.jutils"].

Definition isLog4j (self : GradleSpecifier.t) : bool :=
  String.eqb (GradleSpecifier.group self) "org.apache.logging.log4j".

(** [GradleSpecifierProperty.wrap] and [GradleSpecifierProperty.unwrap]. *)
Definition wrap (value : string) : result GradleSpecifier.t :=
  GradleSpecifier.__init__ value.

Definition unwrap (value : GradleSpecifier.t) : GradleSpecifier.t * string :=
  (value, GradleSpecifier.toString value).

(** ** Loading the shared package data *)

(** The operations that [readSharedPackageData] calls: opening a path for
    reading, reading the open file to its end, closing it, and the decoding
    of its text ([json.load] followed by the constructor of
    [PolyMCSharedPackageData]). *)
Record ReadRuntime : Type := {
  open_r : string -> IO string;
  file_read : string -> IO string;
  file_close_r : string -> IO unit;
  load_package : string -> result PolyMCSharedPackageData
}.

(** [with open(path, 'r') as file: body(file)]. *)
Definition with_open_r {A} (rt : ReadRuntime) (path : string) (body : string -> IO A) : IO A :=
  io_bind (open_r rt path) (fun file w =>
    match body file w with
    | (inl e, w') =>
        match file_close_r rt file w' with
        | (inl e', w'') => (inl e', w'')
        | (inr _, w'') => (inl e, w'')
        end
    | (inr x, w') => io_bind (file_close_r rt file) (fun _ => io_ret x) w'
    end).

Definition readSharedPackageData (rt : ReadRuntime) (PMC_DIR : string) (uid : string)
  : IO PolyMCSharedPackageData :=
  with_open_r rt (package_json_path PMC_DIR uid) (fun file =>
    io_bind (file_read rt file) (fun text =>
    io_lift (load_package rt text))).

(** Files in memory: the content of [path] is that of its latest entry. *)
Fixpoint lookup_file (path : string) (fs : list (string * string)) : option string :=
  match fs with
  | [] => None
  | (p, text) :: rest => if String.eqb p path then Some text else lookup_file path rest
  end.

(** A runtime that writes to the files in memory: opening truncates,
    writing appends, nothing fails but the encoder [dumps]. *)
Definition mem_writer (dumps : PolyMCSharedPackageData -> result string) : Runtime :=
  {| open_w := fun path w =>
       (inr path, {| files := (path, "") :: files w; stdout := stdout w |});
     file_write := fun path text w =>
       (inr tt,
        {| files := (path, match lookup_file path (files w) with
                           | Some old => old ++ text
                           | None => text
                           end) :: files w;
           stdout := stdout w |});
     file_close := fun _ w => (inr tt, w);
     dumps_sorted_indent4 := dumps |}.

(** A runtime that reads the files in memory: opening a path that has no
    file fails with [EnvironmentError]. *)
Definition mem_reader (loads : string -> result PolyMCSharedPackageData) : ReadRuntime :=
  {| open_r := fun path w =>
       match lookup_file path (files w) with
       | Some _ => (inr path, w)
       | None => (inl (EnvironmentError
                         ("[Errno 2] No such file or directory: '" ++ path ++ "'")), w)
       end;
     file_read := fun path w =>
       match lookup_file path (files w) with
       | Some text => (inr text, w)
       | None => (inl (EnvironmentError "[Errno 9] Bad file descriptor"), w)
       end;
     file_close_r := fun _ w => (inr tt, w);
     load_package := loads |}.

(** An encoder and a decoder of the [uid] alone, to run the runtimes on. *)
Definition uid_dumps (d : PolyMCSharedPackageData) : result string :=
  inr (uid d).

Definition uid_loads (text : string) : result PolyMCSharedPackageData :=
  inr {| pkg_formatVersion := 1; pkg_name := "Minecraft"; uid := text;
         recommended := None; authors := None; description := None;
         projectUrl := None |}.

(** * Properties *)

(** ** Splitting and joining *)

Section SplitFacts.
Import PyStr.
Variable sep : ascii.

Lemma split_not_nil (s : string) : split sep s <> [].
Proof.
  destruct s as [|c s]; simpl; [discriminate|].
  destruct (Ascii.eqb c sep); [discriminate|].
  destruct (split sep s); discriminate.
Qed.

Lemma split_head (s : string) :
  exists rest, split sep s = before sep s :: rest.
Proof.
  induction s as [|c s [rest IH]]; simpl.
  - now exists [].
  - destruct (Ascii.eqb c sep).
    + now exists (split sep s).
    + rewrite IH. now exists rest.
Qed.

Lemma split_length (s : string) : length (split sep s) = S (count sep s).
Proof.
  induction s as [|c s IH]; simpl; [reflexivity|].
  destruct (Ascii.eqb c sep); simpl.
  - now rewrite IH.
  - destruct (split sep s) as [|x xs] eqn:E.
    + now destruct (split_not_nil s).
    + simpl in *. exact IH.
Qed.

Lemma split_no_sep (s : string) :
  Forall (fun x => contains sep x = false) (split sep s).
Proof.
  induction s as [|c s IH]; simpl.
  - now constructor.
  - destruct (Ascii.eqb c sep) eqn:Ec.
    + now constructor.
    + destruct (split sep s) as [|x xs] eqn:E; [now destruct (split_not_nil s)|].
      inversion IH; subst. constructor; [|assumption].
      simpl. now rewrite Ec.
Qed.

Lemma contains_app (a b : string) :
  contains sep (a ++ b) = contains sep a || contains sep b.
Proof.
  induction a as [|c a IH]; simpl; [reflexivity|].
  now rewrite IH, orb_assoc.
Qed.

Lemma split_clean (a : string) :
  contains sep a = false -> split sep a = [a].
Proof.
  induction a as [|c a IH]; simpl; [reflexivity|].
  intros H. apply orb_false_elim in H as [Hc Ha].
  now rewrite Hc, (IH Ha).
Qed.

Lemma split_app (a b : string) :
  contains sep a = false ->
  split sep (a ++ String sep b) = a :: split sep b.
Proof.
  induction a as [|c a IH]; simpl.
  - intros _. now rewrite Ascii.eqb_refl.
  - intros H. apply orb_false_elim in H as [Hc Ha].
    now rewrite Hc, (IH Ha).
Qed.

Lemma join_split (s : string) : join sep (split sep s) = s.
Proof.
  induction s as [|c s IH]; simpl; [reflexivity|].
  destruct (split sep s) as [|x xs] eqn:E; [now destruct (split_not_nil s)|].
  destruct (Ascii.eqb c sep) eqn:Ec.
  - apply Ascii.eqb_eq in Ec; subst c.
    change (join sep (EmptyString :: x :: xs)) with (String sep (join sep (x :: xs))).
    now rewrite IH.
  - destruct xs; simpl in *; now rewrite <- IH.
Qed.

Lemma before_no_sep (s : string) : contains sep (before sep s) = false.
Proof.
  induction s as [|c s IH]; simpl; [reflexivity|].
  destruct (Ascii.eqb c sep) eqn:Ec; simpl; [reflexivity|].
  now rewrite Ec.
Qed.

End SplitFacts.

Lemma before_clean (sep : ascii) (a : string) :
  PyStr.contains sep a = false -> before sep a = a.
Proof.
  induction a as [|c a IH]; simpl; [reflexivity|].
  intros H. apply orb_false_elim in H as [Hc Ha].
  now rewrite Hc, (IH Ha).
Qed.

Lemma segments_before (s : string) : segments (before "@" s) = segments s.
Proof.
  unfold segments. now rewrite (before_clean _ _ (before_no_sep "@" s)).
Qed.

(** ** The constructor, case by case *)

Import GradleSpecifier.

(** The constructor written by cases on the segments: it raises exactly when
    one of the three subscripts is out of range. *)
Lemma init_cases (s : string) :
  __init__ s =
  match segments s with
  | g :: a :: v :: rest =>
      inr (mk g a v (extension_of s)
             (match rest with [k] => Some k | _ => None end))
  | _ => inl IndexError
  end.
Proof.
  unfold __init__, segments, extension_of.
  destruct (split_head "@" s) as [r E]. rewrite E. cbn [PyStr.subscript nth_error bind ret].
  destruct (PyStr.split ":" (before "@" s)) as [|g [|a [|v [|k [|k2 rest]]]]];
    destruct r as [|e [|e2 r]]; reflexivity.
Qed.

Lemma extension_of_single (s : string) :
  PyStr.contains "@" s = false -> extension_of s = "jar".
Proof.
  intros H. unfold extension_of. now rewrite (split_clean _ _ H).
Qed.

Lemma extension_of_many (s : string) :
  2 <= PyStr.count "@" s -> extension_of s = "jar".
Proof.
  intros H. unfold extension_of.
  pose proof (split_length "@" s) as L.
  destruct (PyStr.split "@" s) as [|p0 [|p1 [|p2 r]]]; try reflexivity.
  simpl in L. lia.
Qed.

(** Every field that the constructor fills from a segment is free of [:]
    and of [@]. *)
Lemma segments_clean (s : string) :
  Forall (fun x => PyStr.contains ":" x = false /\ PyStr.contains "@" x = false)
         (segments s).
Proof.
  unfold segments.
  pose proof (split_no_sep ":" (before "@" s)) as Hc.
  pose proof (join_split ":" (before "@" s)) as Hj.
  pose proof (before_no_sep "@" s) as Hb. rewrite <- Hj in Hb. clear Hj.
  induction (PyStr.split ":" (before "@" s)) as [|x xs IH]; [constructor|].
  inversion Hc; subst. constructor.
  - split; [assumption|].
    destruct xs; simpl in Hb; [assumption|].
    rewrite contains_app in Hb. now apply orb_false_elim in Hb.
  - apply IH; [assumption|].
    destruct xs; [reflexivity|].
    simpl in Hb. rewrite contains_app in Hb. apply orb_false_elim in Hb as [_ Hb].
    simpl in Hb. exact Hb.
Qed.

Lemma opt_eqb_eq (a b : option string) : PyStr.opt_eqb a b = true <-> a = b.
Proof.
  destruct a as [x|], b as [y|]; simpl; try (split; [discriminate|congruence]).
  - rewrite String.eqb_eq. split; congruence.
  - split; reflexivity.
Qed.

(** ** Equality of coordinates *)

Lemma eq_true_iff (c1 c2 : GradleSpecifier.t) :
  __eq__ c1 c2 = true <->
  group c1 = group c2 /\ artifact c1 = artifact c2
  /\ version c1 = version c2 /\ classifier c1 = classifier c2.
Proof.
  unfold __eq__.
  rewrite !andb_true_iff, !String.eqb_eq, opt_eqb_eq. tauto.
Qed.

(** C2. Equality ignores the extension and distinguishes the classifier:
    [GradleSpecifier("g:a:1.0@zip") == GradleSpecifier("g:a:1.0")] holds,
    [GradleSpecifier("g:a:1.0:dbg") != GradleSpecifier("g:a:1.0")] holds, and
    two coordinates (parsed ones among them) are equal exactly when group,
    artifact, version and classifier all agree. *)
Theorem eq_iff_group_artifact_version_classifier :
  (exists c1 c2, __init__ "g:a:1.0@zip" = inr c1 /\ __init__ "g:a:1.0" = inr c2
                 /\ extension c1 <> extension c2 /\ __eq__ c1 c2 = true)
  /\ (exists c1 c2, __init__ "g:a:1.0:dbg" = inr c1 /\ __init__ "g:a:1.0" = inr c2
                    /\ __ne__ c1 c2 = true)
  /\ (forall c1 c2 : GradleSpecifier.t,
         __eq__ c1 c2 = true <->
         group c1 = group c2 /\ artifact c1 = artifact c2
         /\ version c1 = version c2 /\ classifier c1 = classifier c2).
Proof.
  split; [|split].
  - eexists; eexists. repeat split; try reflexivity. discriminate.
  - eexists; eexists. repeat split; reflexivity.
  - exact eq_true_iff.
Qed.

(** ** Which inputs the constructor accepts *)

(** C4. The constructor fails (the out-of-range subscript raises
    [IndexError], the module's realisation of a malformed coordinate) on
    every input whose part before any [@] has fewer than three
    [:]-separated segments, and succeeds on every other input. *)
Theorem init_fails_iff_fewer_than_three_segments (s : string) :
  (length (segments s) < 3 -> __init__ s = inl IndexError)
  /\ (3 <= length (segments s) -> exists c, __init__ s = inr c).
Proof.
  rewrite init_cases.
  destruct (segments s) as [|g [|a [|v rest]]]; simpl; split; intros H;
    try reflexivity; try lia.
  eexists; reflexivity.
Qed.

Lemma init_fails_iff_fewer_than_three_segments_witness :
  __init__ "net.minecraft:launchwrapper" = inl IndexError
  /\ exists c, __init__ "net.minecraft:launchwrapper:1.5" = inr c.
Proof.
  split.
  - apply (proj1 (init_fails_iff_fewer_than_three_segments "net.minecraft:launchwrapper")).
    simpl. lia.
  - apply (proj2 (init_fails_iff_fewer_than_three_segments "net.minecraft:launchwrapper:1.5")).
    simpl. lia.
Defined.

(** C3, as stated, fails: the string ["::"] is accepted, and group, artifact
    and version of the result are all empty. *)
Lemma init_accepts_empty_fields :
  exists c, __init__ "::" = inr c
            /\ group c = "" /\ artifact c = "" /\ version c = "".
Proof. eexists. repeat split. Qed.

(** C3, amended. On every accepted input, group, artifact and version are
    the first three [:]-separated segments of the part before any [@]; they
    contain neither [:] nor [@], and they are non-empty whenever those three
    segments are (the constructor itself rejects no empty segment). *)
Theorem init_fields_are_first_segments (s : string) (c : GradleSpecifier.t) :
  __init__ s = inr c ->
  (exists rest, segments s = group c :: artifact c :: version c :: rest)
  /\ Forall (fun x => PyStr.contains ":" x = false /\ PyStr.contains "@" x = false)
            [group c; artifact c; version c]
  /\ ((forall i, i < 3 -> nth_error (segments s) i <> Some "") ->
      group c <> "" /\ artifact c <> "" /\ version c <> "").
Proof.
  rewrite init_cases. pose proof (segments_clean s) as Hclean.
  destruct (segments s) as [|g [|a [|v rest]]]; try discriminate.
  intros [= <-]. simpl. split; [now exists rest|]. split.
  - inversion Hclean as [|? ? Hg H1]; subst.
    inversion H1 as [|? ? Ha H2]; subst.
    inversion H2 as [|? ? Hv H3]; subst.
    repeat constructor; tauto.
  - intros H. repeat split; intros ->.
    + apply (H 0); [lia|reflexivity].
    + apply (H 1); [lia|reflexivity].
    + apply (H 2); [lia|reflexivity].
Qed.

Lemma init_fields_are_first_segments_witness :
  (exists rest, segments "org.lwjgl:lwjgl:2.9.0@zip" = "org.lwjgl" :: "lwjgl" :: "2.9.0" :: rest)
  /\ "org.lwjgl" <> "" /\ "lwjgl" <> "" /\ "2.9.0" <> "".
Proof.
  pose proof (init_fields_are_first_segments "org.lwjgl:lwjgl:2.9.0@zip"
                (mk "org.lwjgl" "lwjgl" "2.9.0" "zip" None) eq_refl) as [H1 [_ H3]].
  split; [exact H1|].
  apply H3. intros i Hi.
  destruct i as [|[|[|i]]]; simpl; try discriminate. lia.
Defined.

(** ** Leniency of the constructor *)

(** C10. With five or more segments before any [@] the constructor succeeds,
    leaves the classifier [None] and keeps only the first three segments;
    with two or more [@] in the input the suffixes are ignored: the
    extension stays ["jar"] and the result is that of the part before the
    first [@] alone. *)
Theorem init_ignores_extra_segments_and_suffixes (s : string) :
  (5 <= length (segments s) ->
   exists g a v rest c,
     segments s = g :: a :: v :: rest
     /\ __init__ s = inr c
     /\ c = mk g a v (extension_of s) None)
  /\ (2 <= PyStr.count "@" s ->
      __init__ s = __init__ (before "@" s)
      /\ forall c, __init__ s = inr c -> extension c = "jar").
Proof.
  split.
  - intros H. rewrite init_cases.
    destruct (segments s) as [|g [|a [|v [|k [|k2 rest]]]]]; simpl in H; try lia.
    exists g, a, v, (k :: k2 :: rest). eexists. repeat split.
  - intros H. split.
    + rewrite !init_cases, segments_before, (extension_of_many s H).
      now rewrite (extension_of_single _ (before_no_sep "@" s)).
    + intros c. rewrite init_cases, (extension_of_many s H).
      destruct (segments s) as [|g [|a [|v rest]]]; try discriminate.
      now intros [= <-].
Qed.

Lemma init_ignores_extra_segments_and_suffixes_witness :
  __init__ "g:a:1.0:x:y:z" = inr (mk "g" "a" "1.0" "jar" None)
  /\ __init__ "g:a:1.0:dbg@zip@tar" = inr (mk "g" "a" "1.0" "jar" (Some "dbg")).
Proof.
  split.
  - destruct (proj1 (init_ignores_extra_segments_and_suffixes "g:a:1.0:x:y:z"))
      as (g & a & v & rest & c & Hs & Hi & Hc).
    + simpl. lia.
    + rewrite Hi, Hc. injection Hs as <- <- <- _. reflexivity.
  - destruct (proj2 (init_ignores_extra_segments_and_suffixes "g:a:1.0:dbg@zip@tar"))
      as [Hi _].
    + simpl. lia.
    + rewrite Hi. reflexivity.
Defined.

(** ** Derived paths *)

Lemma join_cons_char (sep c : ascii) (x : string) (xs : list string) :
  PyStr.join sep (String c x :: xs) = String c (PyStr.join sep (x :: xs)).
Proof. destruct xs; reflexivity. Qed.

Lemma replace_is_join_split (old new : ascii) (s : string) :
  PyStr.replace old new s = PyStr.join new (PyStr.split old s).
Proof.
  induction s as [|c s IH]; simpl; [reflexivity|].
  destruct (PyStr.split old s) as [|x xs] eqn:E; [now destruct (split_not_nil old s)|].
  destruct (Ascii.eqb c old).
  - change (PyStr.join new (EmptyString :: x :: xs))
      with (String new (PyStr.join new (x :: xs))).
    now rewrite IH.
  - now rewrite join_cons_char, IH.
Qed.

Lemma append_assoc (a b c : string) : (a ++ b) ++ c = a ++ b ++ c.
Proof. induction a as [|x a IH]; simpl; [reflexivity|now rewrite IH]. Qed.

(** C6. For every coordinate, [getFilename] is
    [artifact-version[-classifier].extension] (the classifier part present
    when the classifier is a non-empty string), [getBase] is the group with
    each [.] replaced by [/] followed by [/artifact/version/], and [getPath]
    is their concatenation; the path of ["org.lwjgl:lwjgl:2.9.0"] is
    ["org/lwjgl/lwjgl/2.9.0/lwjgl-2.9.0.jar"]. *)
Theorem path_derivation :
  (forall c : GradleSpecifier.t,
      getFilename c
      = artifact c ++ "-" ++ version c ++ dash_classifier (classifier c)
          ++ "." ++ extension c
      /\ getBase c
         = group_directory (group c) ++ "/" ++ artifact c ++ "/" ++ version c ++ "/"
      /\ PyStr.contains "." (group_directory (group c)) = false
      /\ getPath c = getBase c ++ getFilename c)
  /\ exists c, __init__ "org.lwjgl:lwjgl:2.9.0" = inr c
               /\ getPath c = "org/lwjgl/lwjgl/2.9.0/lwjgl-2.9.0.jar".
Proof.
  split.
  - intros [g a v e k]. unfold getFilename, getBase, getPath, group_directory.
    cbn [group artifact version extension classifier].
    rewrite <- replace_is_join_split. repeat split.
    + destruct k as [k|]; simpl; [|reflexivity].
      destruct (String.eqb k ""); reflexivity.
    + induction g as [|x g IH]; simpl; [reflexivity|].
      rewrite IH, orb_false_r.
      destruct (Ascii.eqb x ".") eqn:E; [reflexivity|exact E].
  - eexists. split; reflexivity.
Qed.

(** ** Format-version gates *)

Lemma read_format_d (v : Z) : read_d (PyStr.format_d v) = Some v.
Proof.
  unfold read_d, PyStr.format_d. rewrite NilZero.isi.
  - simpl. now rewrite DecimalZ.of_to.
  - destruct v; simpl; try discriminate.
    intros [= H]. exact (Unsigned.to_uint_nonnil _ H).
  - destruct v; simpl; try discriminate.
    intros [= H]. exact (Unsigned.to_uint_nonnil _ H).
Qed.

Local Open Scope Z_scope.

(** C7. The native gate: a [formatVersion] above the current version 1 is
    refused with [UnknownVersionException], whose message carries the
    observed and the maximum value; a value of at most 1 passes; and an
    omitted field takes the default, the current version 1, which passes. *)
Theorem polymc_format_version_gate :
  CurrentPolyMCFormatVersion = 1
  /\ (forall v, 1 < v ->
        validateSupportedPolyMCVersion v
        = inl (UnknownVersionException
                 ("Unsupported PolyMC format version: " ++ PyStr.format_d v
                  ++ ". Max supported is: " ++ PyStr.format_d 1))
        /\ read_d (PyStr.format_d v) = Some v
        /\ read_d (PyStr.format_d 1) = Some 1
        /\ decode_field formatVersion (Some v) = inl (UnknownVersionException
                 ("Unsupported PolyMC format version: " ++ PyStr.format_d v
                  ++ ". Max supported is: " ++ PyStr.format_d 1)))
  /\ (forall v, v <= 1 ->
        validateSupportedPolyMCVersion v = inr tt
        /\ decode_field formatVersion (Some v) = inr (Some v))
  /\ decode_field formatVersion None = inr (Some 1).
Proof.
  split; [reflexivity|]. split; [|split; [|reflexivity]].
  - intros v Hv.
    assert (E : validateSupportedPolyMCVersion v
                = inl (UnknownVersionException
                         ("Unsupported PolyMC format version: " ++ PyStr.format_d v
                          ++ ". Max supported is: " ++ PyStr.format_d 1))).
    { unfold validateSupportedPolyMCVersion, CurrentPolyMCFormatVersion.
      destruct (Z.gtb_spec v 1); [reflexivity|lia]. }
    repeat split; try apply read_format_d; [exact E|].
    unfold decode_field. cbn [default validators formatVersion]. now rewrite E.
  - intros v Hv.
    assert (E : validateSupportedPolyMCVersion v = inr tt).
    { unfold validateSupportedPolyMCVersion, CurrentPolyMCFormatVersion.
      destruct (Z.gtb_spec v 1); [lia|reflexivity]. }
    split; [exact E|].
    unfold decode_field. cbn [default validators formatVersion]. now rewrite E.
Qed.

Lemma polymc_format_version_gate_witness :
  decode_field formatVersion (Some 2)
  = inl (UnknownVersionException
           "Unsupported PolyMC format version: 2. Max supported is: 1")
  /\ decode_field formatVersion (Some 1) = inr (Some 1)
  /\ decode_field formatVersion (Some (-4)) = inr (Some (-4)).
Proof.
  destruct polymc_format_version_gate as (_ & Hbad & Hok & _).
  split; [|split].
  - destruct (Hbad 2) as (_ & _ & _ & H); [lia|]. exact H.
  - destruct (Hok 1) as [_ H]; [lia|]. exact H.
  - destruct (Hok (-4)) as [_ H]; [lia|]. exact H.
Defined.

(** C8. The upstream gate: a [minimumLauncherVersion] above the hard-coded
    maximum 21 is refused with [UnknownVersionException], whose message
    carries both values; a value of at most 21 passes; and the field is
    optional, so that its absence runs no check. *)
Theorem mojang_minimum_launcher_version_gate :
  (forall v, 21 < v ->
      validateSupportedMojangVersion v
      = inl (UnknownVersionException
               ("Unsupported Mojang format version: " ++ PyStr.format_d v
                ++ ". Max supported is: " ++ PyStr.format_d 21))
      /\ read_d (PyStr.format_d v) = Some v
      /\ read_d (PyStr.format_d 21) = Some 21
      /\ decode_field minimumLauncherVersion (Some v) = inl (UnknownVersionException
               ("Unsupported Mojang format version: " ++ PyStr.format_d v
                ++ ". Max supported is: " ++ PyStr.format_d 21)))
  /\ (forall v, v <= 21 ->
        validateSupportedMojangVersion v = inr tt
        /\ decode_field minimumLauncherVersion (Some v) = inr (Some v))
  /\ default minimumLauncherVersion = None
  /\ decode_field minimumLauncherVersion None = inr None.
Proof.
  split; [|split; [|split; reflexivity]].
  - intros v Hv.
    assert (E : validateSupportedMojangVersion v
                = inl (UnknownVersionException
                         ("Unsupported Mojang format version: " ++ PyStr.format_d v
                          ++ ". Max supported is: " ++ PyStr.format_d 21))).
    { unfold validateSupportedMojangVersion.
      destruct (Z.gtb_spec v 21); [reflexivity|lia]. }
    repeat split; try apply read_format_d; [exact E|].
    unfold decode_field. cbn [default validators minimumLauncherVersion]. now rewrite E.
  - intros v Hv.
    assert (E : validateSupportedMojangVersion v = inr tt).
    { unfold validateSupportedMojangVersion.
      destruct (Z.gtb_spec v 21); [lia|reflexivity]. }
    split; [exact E|].
    unfold decode_field. cbn [default validators minimumLauncherVersion]. now rewrite E.
Qed.

Lemma mojang_minimum_launcher_version_gate_witness :
  decode_field minimumLauncherVersion (Some 22)
  = inl (UnknownVersionException
           "Unsupported Mojang format version: 22. Max supported is: 21")
  /\ decode_field minimumLauncherVersion (Some 21) = inr (Some 21).
Proof.
  destruct mojang_minimum_launcher_version_gate as (Hbad & Hok & _).
  split.
  - destruct (Hbad 22) as (_ & _ & _ & H); [lia|]. exact H.
  - destruct (Hok 21) as [_ H]; [lia|]. exact H.
Defined.

Close Scope Z_scope.

(** ** Saving the shared package data *)

Lemma print2_diagnostic (self : PolyMCSharedPackageData) (e : string) (w : World) :
  print2 ("Error while trying to save shared packaged data for " ++ uid self ++ ":") e w
  = (inr tt, printed w (save_diagnostic self e)).
Proof.
  unfold print2, printed, save_diagnostic. do 3 f_equal.
  now rewrite !append_assoc.
Qed.

Lemma write_of_body_failure (rt : Runtime) (PMC_DIR : string)
      (self : PolyMCSharedPackageData) (w w' : World) (e : string) :
  write_body rt PMC_DIR self w = (inl (EnvironmentError e), w') ->
  write rt PMC_DIR self w = (inr tt, printed w' (save_diagnostic self e)).
Proof.
  intros H. unfold write, try_except_EnvironmentError. rewrite H.
  apply print2_diagnostic.
Qed.

(** C9. [write] never lets an I/O failure reach its caller: whenever writing
    to the fixed path fails with [EnvironmentError] (while opening, or while
    writing to the opened file), the error is caught, one line reporting it
    is printed, and the call returns normally; no run of [write] ends in an
    [EnvironmentError]. *)
Theorem write_reports_io_failure (rt : Runtime) (PMC_DIR : string)
        (self : PolyMCSharedPackageData) (w : World) :
  (forall e w',
      write_body rt PMC_DIR self w = (inl (EnvironmentError e), w') ->
      write rt PMC_DIR self w = (inr tt, printed w' (save_diagnostic self e)))
  /\ (forall e w',
         open_w rt (package_json_path PMC_DIR (uid self)) w
         = (inl (EnvironmentError e), w') ->
         write rt PMC_DIR self w = (inr tt, printed w' (save_diagnostic self e)))
  /\ (forall file text e w1 w2 w3,
         open_w rt (package_json_path PMC_DIR (uid self)) w = (inr file, w1) ->
         dumps_sorted_indent4 rt self = inr text ->
         file_write rt file text w1 = (inl (EnvironmentError e), w2) ->
         file_close rt file w2 = (inr tt, w3) ->
         write rt PMC_DIR self w = (inr tt, printed w3 (save_diagnostic self e)))
  /\ (forall e w', write rt PMC_DIR self w <> (inl (EnvironmentError e), w')).
Proof.
  repeat split.
  - intros e w'. apply write_of_body_failure.
  - intros e w' H. apply write_of_body_failure.
    unfold write_body, with_open_w, io_bind. now rewrite H.
  - intros file text e w1 w2 w3 Ho Hd Hw Hc. apply write_of_body_failure.
    unfold write_body, with_open_w, io_bind, io_lift. now rewrite Ho, Hd, Hw, Hc.
  - intros e w'. unfold write, try_except_EnvironmentError.
    destruct (write_body rt PMC_DIR self w) as [[[| | |] | []] w1];
      unfold print2; discriminate.
Qed.

Lemma write_reports_io_failure_witness :
  write readonly_runtime "/srv/polymc" example_package empty_world
  = (inr tt,
     {| files := [];
        stdout := ["Error while trying to save shared packaged data for net.minecraft: [Errno 13] Permission denied: '/srv/polymc/net.minecraft/package.json'"] |}).
Proof.
  destruct (write_reports_io_failure readonly_runtime "/srv/polymc" example_package
              empty_world) as (_ & H & _).
  rewrite (H "[Errno 13] Permission denied: '/srv/polymc/net.minecraft/package.json'"
             empty_world); reflexivity.
Defined.

Example write_in_memory :
  write memory_runtime "/srv/polymc" example_package empty_world
  = (inr tt,
     {| files := [("/srv/polymc/net.minecraft/package.json", "{uid: net.minecraft}");
                  ("/srv/polymc/net.minecraft/package.json", "")];
        stdout := [] |}).
Proof. reflexivity. Qed.

(** ** Hashing of coordinates *)

(** Coordinates with one canonical string have one hash, whatever the hash
    of strings is. *)
Lemma hash_of_equal_strings (h : string -> Z) (c1 c2 : GradleSpecifier.t) :
  toString c1 = toString c2 -> __hash__ h c1 = __hash__ h c2.
Proof. unfold __hash__. now intros ->. Qed.

(** Equal coordinates that also agree on the extension have one hash. *)
Lemma hash_of_equal_same_extension (h : string -> Z) (c1 c2 : GradleSpecifier.t) :
  __eq__ c1 c2 = true -> extension c1 = extension c2 ->
  __hash__ h c1 = __hash__ h c2.
Proof.
  intros He Hx. apply hash_of_equal_strings.
  apply eq_true_iff in He.
  destruct c1, c2; simpl in *. destruct He as (-> & -> & -> & ->). now subst.
Qed.

(** C1, on the code: [GradleSpecifier("g:a:1.0@zip")] and
    [GradleSpecifier("g:a:1.0")] are equal under [__eq__], which leaves the
    extension out, while [__hash__] hashes the canonical strings
    ["g:a:1.0@zip"] and ["g:a:1.0"], which differ: under every string hash
    that tells these two strings apart the two coordinates are equal and
    hash differently. *)
Theorem equal_coordinates_hash_differently :
  exists c1 c2,
    __init__ "g:a:1.0@zip" = inr c1 /\ __init__ "g:a:1.0" = inr c2
    /\ __eq__ c1 c2 = true
    /\ toString c1 = "g:a:1.0@zip" /\ toString c2 = "g:a:1.0"
    /\ (forall h : string -> Z,
           h "g:a:1.0@zip" <> h "g:a:1.0" -> __hash__ h c1 <> __hash__ h c2)
    /\ __hash__ poly_hash c1 <> __hash__ poly_hash c2.
Proof.
  eexists; eexists. repeat split; try reflexivity.
  - intros h H. exact H.
  - vm_compute. discriminate.
Qed.

(** ** Round trip through the canonical string *)

Lemma append_nil_r (a : string) : a ++ "" = a.
Proof. induction a as [|x a IH]; simpl; [reflexivity|now rewrite IH]. Qed.

Lemma before_of_split (sep : ascii) (s x : string) (xs : list string) :
  PyStr.split sep s = x :: xs -> before sep s = x.
Proof.
  intros H. destruct (split_head sep s) as [r E]. congruence.
Qed.

Lemma extension_of_clean (s : string) : PyStr.contains "@" (extension_of s) = false.
Proof.
  unfold extension_of. pose proof (split_no_sep "@" s) as H.
  destruct (PyStr.split "@" s) as [|p0 [|p1 [|p2 r]]]; try reflexivity.
  inversion H as [|? ? _ H1]; subst. now inversion H1.
Qed.

(** The canonical string without its extension suffix. *)
Lemma toString_split (c : GradleSpecifier.t) :
  toString c
  = PyStr.join ":" ([group c; artifact c; version c]
                      ++ (if PyStr.truthy (classifier c)
                          then match classifier c with Some k => [k] | None => [] end
                          else []))
      ++ (if String.eqb (extension c) "jar" then "" else String "@" (extension c)).
Proof.
  destruct c as [g a v e k]. unfold toString.
  cbn [group artifact version extension classifier].
  destruct k as [k|]; cbn [PyStr.truthy negb];
    [destruct (String.eqb k "")|]; destruct (String.eqb e "jar");
    cbn [negb app PyStr.join];
    repeat (rewrite append_assoc; cbn [append]); reflexivity.
Qed.

Lemma contains_join (sep c : ascii) (l : list string) :
  Ascii.eqb sep c = false ->
  Forall (fun x => PyStr.contains c x = false) l ->
  PyStr.contains c (PyStr.join sep l) = false.
Proof.
  intros Hs H. induction H as [|x xs Hx Hxs IH]; [reflexivity|].
  destruct xs as [|y ys]; [exact Hx|].
  change (PyStr.join sep (x :: y :: ys)) with (x ++ String sep (PyStr.join sep (y :: ys))).
  rewrite contains_app, Hx. cbn [PyStr.contains orb]. rewrite Hs. exact IH.
Qed.

Lemma split_join (sep : ascii) (l : list string) :
  l <> [] ->
  Forall (fun x => PyStr.contains sep x = false) l ->
  PyStr.split sep (PyStr.join sep l) = l.
Proof.
  intros Hne H. induction H as [|x xs Hx Hxs IH]; [congruence|].
  destruct xs as [|y ys]; [now apply split_clean|].
  change (PyStr.join sep (x :: y :: ys)) with (x ++ String sep (PyStr.join sep (y :: ys))).
  rewrite (split_app _ _ _ Hx), IH; [reflexivity|discriminate].
Qed.

(** Parsing a string [base] or [base@ext], when [base] is made of clean
    segments and [ext] has no [@]. *)
Lemma init_of_joined (l : list string) (e : string) :
  Forall (fun x => PyStr.contains ":" x = false /\ PyStr.contains "@" x = false) l ->
  l <> [] ->
  PyStr.contains "@" e = false ->
  segments (PyStr.join ":" l ++ (if String.eqb e "jar" then "" else String "@" e)) = l
  /\ extension_of (PyStr.join ":" l ++ (if String.eqb e "jar" then "" else String "@" e)) = e.
Proof.
  intros Hl Hne He.
  assert (Hc : Forall (fun x => PyStr.contains ":" x = false) l)
    by (eapply Forall_impl; [|exact Hl]; now intros x [? ?]).
  assert (Ha : Forall (fun x => PyStr.contains "@" x = false) l)
    by (eapply Forall_impl; [|exact Hl]; now intros x [? ?]).
  assert (Hb : PyStr.contains "@" (PyStr.join ":" l) = false)
    by (apply contains_join; [reflexivity|exact Ha]).
  unfold segments, extension_of.
  destruct (String.eqb e "jar") eqn:Ej.
  - apply String.eqb_eq in Ej. subst e. rewrite append_nil_r.
    rewrite (split_clean _ _ Hb), (before_clean _ _ Hb).
    split; [now apply split_join|reflexivity].
  - rewrite (split_app _ _ _ Hb), (split_clean _ _ He).
    rewrite (before_of_split "@" _ (PyStr.join ":" l) [e]).
    + split; [now apply split_join|reflexivity].
    + now rewrite (split_app _ _ _ Hb), (split_clean _ _ He).
Qed.

(** Reparsing the canonical string of a coordinate whose fields are clean
    gives the coordinate back, a classifier that is the empty string apart:
    [toString] leaves it out, so that it comes back as [None]. *)
Lemma init_toString (c : GradleSpecifier.t) :
  Forall (fun x => PyStr.contains ":" x = false /\ PyStr.contains "@" x = false)
         [group c; artifact c; version c] ->
  (forall k, classifier c = Some k ->
             PyStr.contains ":" k = false /\ PyStr.contains "@" k = false) ->
  PyStr.contains "@" (extension c) = false ->
  __init__ (toString c)
  = inr (mk (group c) (artifact c) (version c) (extension c)
            (if PyStr.truthy (classifier c) then classifier c else None)).
Proof.
  intros Hf Hk He. rewrite init_cases, toString_split.
  destruct c as [g a v e k]. cbn [group artifact version extension classifier] in *.
  match goal with
  | |- context [PyStr.join ":" ?l ++ _] =>
      destruct (init_of_joined l e) as [Hs Hx]
  end.
  - apply Forall_app. split; [exact Hf|].
    destruct k as [k|]; cbn [PyStr.truthy]; [|constructor].
    destruct (negb (String.eqb k "")); constructor; [now apply Hk|constructor].
  - discriminate.
  - exact He.
  - rewrite Hs, Hx. destruct k as [k|]; cbn [PyStr.truthy]; [|reflexivity].
    destruct (negb (String.eqb k "")); reflexivity.
Qed.

(** What the constructor produces has clean fields. *)
Lemma init_clean (s : string) (c : GradleSpecifier.t) :
  __init__ s = inr c ->
  Forall (fun x => PyStr.contains ":" x = false /\ PyStr.contains "@" x = false)
         [group c; artifact c; version c]
  /\ (forall k, classifier c = Some k ->
                PyStr.contains ":" k = false /\ PyStr.contains "@" k = false)
  /\ PyStr.contains "@" (extension c) = false.
Proof.
  rewrite init_cases. pose proof (segments_clean s) as Hclean.
  destruct (segments s) as [|g [|a [|v rest]]]; try discriminate.
  intros [= <-]. cbn [group artifact version extension classifier].
  inversion Hclean as [|? ? Hg H1]; subst.
  inversion H1 as [|? ? Ha H2]; subst.
  inversion H2 as [|? ? Hv H3]; subst.
  split; [repeat constructor; tauto|]. split; [|apply extension_of_clean].
  intros k. destruct rest as [|k' [|k2 rest]]; try discriminate.
  intros [= ->]. now inversion H3.
Qed.

Lemma strip_app_clean (p t : string) :
  PyStr.contains "@" p = false ->
  strip_jar_suffix (p ++ t) = p ++ strip_jar_suffix t.
Proof.
  induction p as [|c p IH]; [reflexivity|].
  intros H. cbn [PyStr.contains] in H. apply orb_false_elim in H as [Hc Hp].
  cbn [append strip_jar_suffix String.eqb]. now rewrite Hc, (IH Hp).
Qed.

Lemma strip_clean (x : string) :
  PyStr.contains "@" x = false -> strip_jar_suffix x = x.
Proof.
  intros H. rewrite <- (append_nil_r x) at 1.
  rewrite (strip_app_clean _ _ H). apply append_nil_r.
Qed.

Lemma strip_at (e : string) :
  PyStr.contains "@" e = false ->
  strip_jar_suffix (String "@" e)
  = if String.eqb e "jar" then "" else String "@" e.
Proof.
  intros H. cbn [strip_jar_suffix String.eqb]. rewrite Ascii.eqb_refl.
  destruct (String.eqb e "jar"); [reflexivity|]. now rewrite (strip_clean _ H).
Qed.

(** A string with at most one [@] is its part before the [@], followed or
    not by [@] and an extension. *)
Lemma at_most_one_at (s : string) :
  PyStr.count "@" s <= 1 ->
  (PyStr.contains "@" s = false /\ before "@" s = s /\ extension_of s = "jar")
  \/ (exists p e, s = p ++ String "@" e
                  /\ PyStr.contains "@" p = false /\ PyStr.contains "@" e = false
                  /\ before "@" s = p /\ extension_of s = e).
Proof.
  intros H.
  pose proof (split_length "@" s) as L.
  pose proof (split_no_sep "@" s) as C.
  pose proof (join_split "@" s) as J.
  unfold extension_of.
  destruct (PyStr.split "@" s) as [|p [|e [|e2 r]]] eqn:E; simpl in L; try lia.
  - left. simpl in J. subst p. inversion C; subst.
    repeat split; [assumption|now apply before_clean].
  - right. exists p, e. simpl in J. inversion C as [|? ? Hp C1]; subst.
    inversion C1 as [|? ? He _]; subst.
    repeat split; try assumption. now apply (before_of_split "@" _ p [e]).
Qed.

(** C5, as stated, fails.  On ["g:a:1.0:"] the canonical string drops the
    final [:], and parsing it again gives a coordinate that is not equal to
    the first one (classifier [None] against the empty string); on
    ["g:a:1.0:x:y"] and on ["g:a:1.0@zip@tar"] the canonical string drops
    what follows the version, though no [@jar] suffix is involved. *)
Lemma roundtrip_fails_outside_documented_shape :
  (exists c c', __init__ "g:a:1.0:" = inr c
                /\ strip_jar_suffix "g:a:1.0:" = "g:a:1.0:"
                /\ toString c = "g:a:1.0"
                /\ __init__ (toString c) = inr c'
                /\ __eq__ c' c = false)
  /\ (exists c, __init__ "g:a:1.0:x:y" = inr c
                /\ strip_jar_suffix "g:a:1.0:x:y" = "g:a:1.0:x:y"
                /\ toString c = "g:a:1.0")
  /\ (exists c, __init__ "g:a:1.0@zip@tar" = inr c
                /\ strip_jar_suffix "g:a:1.0@zip@tar" = "g:a:1.0@zip@tar"
                /\ toString c = "g:a:1.0").
Proof.
  split; [|split].
  - eexists; eexists. repeat split.
  - eexists. repeat split.
  - eexists. repeat split.
Qed.

(** C5, amended.  For every accepted string of the documented shape
    [group:artifact:version[:classifier][@extension]] (at most one [@],
    three or four segments before it, a classifier that is not empty when
    there is one), the canonical string is the input with an explicit [@jar]
    suffix dropped and everything else unchanged, and parsing the canonical
    string gives the same coordinate back, extension included.  For every
    accepted string at all, parsing the canonical string succeeds and
    agrees on group, artifact, version and extension. *)
Theorem roundtrip_on_documented_shape (s : string) (c : GradleSpecifier.t) :
  __init__ s = inr c ->
  (exists c', __init__ (toString c) = inr c'
              /\ group c' = group c /\ artifact c' = artifact c
              /\ version c' = version c /\ extension c' = extension c)
  /\ (documented_shape s = true ->
      toString c = strip_jar_suffix s
      /\ __init__ (toString c) = inr c
      /\ exists c', __init__ (strip_jar_suffix s) = inr c'
                    /\ __eq__ c' c = true /\ extension c' = extension c).
Proof.
  intros Hinit.
  destruct (init_clean s c Hinit) as (Hf & Hk & He).
  pose proof (init_toString c Hf Hk He) as Hre.
  split; [eexists; split; [exact Hre|now repeat split]|].
  intros Hshape. unfold documented_shape in Hshape.
  rewrite !andb_true_iff, !Nat.leb_le in Hshape.
  destruct Hshape as [[[Hat H3] H4] Hcls].
  assert (Hts : toString c = strip_jar_suffix s /\ __init__ (toString c) = inr c).
  { rewrite Hre, toString_split. clear Hre Hf Hk He.
    rewrite init_cases in Hinit.
    pose proof (join_split ":" (before "@" s)) as J. fold (segments s) in J.
    destruct (segments s) as [|g [|a [|v rest]]]; try discriminate.
    injection Hinit as <-. cbn [group artifact version extension classifier].
    assert (Hl : ([g; a; v] ++
                 (if PyStr.truthy (match rest with [k] => Some k | _ => None end)
                  then match (match rest with [k] => Some k | _ => None end) with
                       | Some k => [k] | None => [] end
                  else []))%list = g :: a :: v :: rest
                 /\ (if PyStr.truthy (match rest with [k] => Some k | _ => None end)
                     then match rest with [k] => Some k | _ => None end
                     else None) = match rest with [k] => Some k | _ => None end).
    { destruct rest as [|k [|k2 rest]]; simpl in H4; try lia.
      - split; reflexivity.
      - simpl in Hcls. cbn [PyStr.truthy]. rewrite Hcls. split; reflexivity. }
    destruct Hl as [-> ->]. rewrite J. split; [|reflexivity].
    destruct (at_most_one_at s Hat) as [(Hc & -> & ->) | (p & e & Hs & Hp & Hx & -> & ->)].
    - cbn [String.eqb Ascii.eqb Bool.eqb andb]. simpl.
      now rewrite append_nil_r, (strip_clean _ Hc).
    - rewrite Hs. now rewrite (strip_app_clean _ _ Hp), (strip_at _ Hx). }
  destruct Hts as [Hts Hrt]. repeat split; try assumption.
  exists c. rewrite <- Hts. repeat split; [exact Hrt|].
  apply eq_true_iff. now repeat split.
Qed.

Lemma roundtrip_on_documented_shape_witness :
  toString (mk "org.lwjgl" "lwjgl" "2.9.0" "jar" (Some "natives"))
  = strip_jar_suffix "org.lwjgl:lwjgl:2.9.0:natives@jar"
  /\ __init__ "org.lwjgl:lwjgl:2.9.0:natives"
     = inr (mk "org.lwjgl" "lwjgl" "2.9.0" "jar" (Some "natives")).
Proof.
  destruct (roundtrip_on_documented_shape "org.lwjgl:lwjgl:2.9.0:natives@jar"
              (mk "org.lwjgl" "lwjgl" "2.9.0" "jar" (Some "natives")) eq_refl)
    as [_ H].
  destruct (H eq_refl) as (H1 & H2 & _).
  split; [exact H1|exact H2].
Defined.

(** * Further properties of the module *)

(** ** Equality is an equivalence *)

(** X1. [__eq__] is reflexive, symmetric and transitive, and [__ne__] is
    its negation. *)
Theorem eq_is_equivalence :
  (forall c, __eq__ c c = true)
  /\ (forall c1 c2, __eq__ c1 c2 = __eq__ c2 c1)
  /\ (forall c1 c2 c3, __eq__ c1 c2 = true -> __eq__ c2 c3 = true -> __eq__ c1 c3 = true)
  /\ (forall c1 c2, __ne__ c1 c2 = true <-> __eq__ c1 c2 = false).
Proof.
  repeat split.
  - intros c. apply eq_true_iff. now repeat split.
  - intros c1 c2.
    destruct (__eq__ c1 c2) eqn:E1, (__eq__ c2 c1) eqn:E2; try reflexivity.
    + apply eq_true_iff in E1. rewrite <- E2. symmetry. apply eq_true_iff.
      destruct E1 as (-> & -> & -> & ->). now repeat split.
    + apply eq_true_iff in E2. rewrite <- E1. apply eq_true_iff.
      destruct E2 as (-> & -> & -> & ->). now repeat split.
  - intros c1 c2 c3 H12 H23. apply eq_true_iff in H12, H23. apply eq_true_iff.
    destruct H12 as (-> & -> & -> & ->). exact H23.
  - unfold __ne__. now intros ->%negb_true_iff.
  - unfold __ne__. now intros ->.
Qed.

(** ** The order of coordinates *)

Lemma nat_of_ascii_inj (x y : ascii) : nat_of_ascii x = nat_of_ascii y -> x = y.
Proof.
  intros H. rewrite <- (ascii_nat_embedding x), <- (ascii_nat_embedding y).
  now rewrite H.
Qed.

Lemma str_ltb_irrefl (a : string) : str_ltb a a = false.
Proof.
  induction a as [|x a IH]; [reflexivity|].
  cbn [str_ltb]. now rewrite Nat.ltb_irrefl, Ascii.eqb_refl.
Qed.

Lemma str_ltb_trans (a b c : string) :
  str_ltb a b = true -> str_ltb b c = true -> str_ltb a c = true.
Proof.
  revert b c. induction a as [|x a IH]; intros [|y b] [|z c]; cbn [str_ltb];
    try discriminate; try reflexivity.
  destruct (Nat.ltb_spec (nat_of_ascii x) (nat_of_ascii y)) as [Hxy|Hxy];
    destruct (Nat.ltb_spec (nat_of_ascii y) (nat_of_ascii z)) as [Hyz|Hyz];
    destruct (Nat.ltb_spec (nat_of_ascii x) (nat_of_ascii z)) as [Hxz|Hxz];
    destruct (Ascii.eqb_spec x y) as [E1|E1];
    destruct (Ascii.eqb_spec y z) as [E2|E2];
    destruct (Ascii.eqb_spec x z) as [E3|E3];
    subst; intros H1 H2;
    try discriminate; try reflexivity; try lia; try congruence.
  now apply (IH b c).
Qed.

Lemma str_ltb_asym (a b : string) : str_ltb a b = true -> str_ltb b a = false.
Proof.
  intros H. destruct (str_ltb b a) eqn:E; [|reflexivity].
  rewrite <- (str_ltb_irrefl a). symmetry. exact (str_ltb_trans _ _ _ H E).
Qed.

Lemma str_ltb_total (a b : string) :
  str_ltb a b = false -> str_ltb b a = false -> a = b.
Proof.
  revert b. induction a as [|x a IH]; intros [|y b]; cbn [str_ltb];
    try discriminate; try reflexivity.
  destruct (Nat.ltb_spec (nat_of_ascii x) (nat_of_ascii y)) as [Hxy|Hxy];
    [discriminate|].
  destruct (Nat.ltb_spec (nat_of_ascii y) (nat_of_ascii x)) as [Hyx|Hyx];
    [intros _; discriminate|].
  assert (x = y) as -> by (apply nat_of_ascii_inj; lia).
  rewrite Ascii.eqb_refl. intros H1 H2. now rewrite (IH b H1 H2).
Qed.

(** X2. [__lt__] is a strict order that is total on canonical strings: it
    is irreflexive and transitive, and two coordinates of which neither is
    below the other have the same canonical string. *)
Theorem lt_is_strict_total_order_on_canonical_strings :
  (forall c, __lt__ c c = false)
  /\ (forall c1 c2 c3, __lt__ c1 c2 = true -> __lt__ c2 c3 = true -> __lt__ c1 c3 = true)
  /\ (forall c1 c2, __lt__ c1 c2 = true -> __lt__ c2 c1 = false)
  /\ (forall c1 c2, __lt__ c1 c2 = false -> __lt__ c2 c1 = false ->
                    toString c1 = toString c2).
Proof.
  unfold __lt__. repeat split.
  - intros c. apply str_ltb_irrefl.
  - intros c1 c2 c3. apply str_ltb_trans.
  - intros c1 c2. apply str_ltb_asym.
  - intros c1 c2. apply str_ltb_total.
Qed.

Lemma lt_is_strict_total_order_on_canonical_strings_witness :
  __lt__ (mk "g" "a" "1.0" "jar" None) (mk "g" "a" "1.0" "zip" None) = true
  /\ __lt__ (mk "g" "a" "1.0" "zip" None) (mk "g" "a" "1.0" "jar" None) = false.
Proof.
  destruct lt_is_strict_total_order_on_canonical_strings as (_ & _ & H & _).
  split; [reflexivity|]. apply H. reflexivity.
Defined.

Lemma canonical_string_jar_below_other (c1 c2 : GradleSpecifier.t) :
  __eq__ c1 c2 = true ->
  extension c1 = "jar" -> extension c2 <> "jar" ->
  str_ltb (toString c1) (toString c2) = true.
Proof.
  intros He H1 H2. apply eq_true_iff in He.
  rewrite !toString_split.
  destruct c1 as [g a v e k], c2 as [g2 a2 v2 e2 k2].
  cbn [group artifact version extension classifier] in *.
  destruct He as (-> & -> & -> & ->). subst e.
  apply String.eqb_neq in H2. rewrite H2. cbn [String.eqb Ascii.eqb Bool.eqb].
  simpl (if true then _ else _).
  generalize (PyStr.join ":" ([g2; a2; v2] ++
                (if PyStr.truthy k2
                 then match k2 with Some k => [k] | None => [] end
                 else []))).
  intros p. induction p as [|x p IH]; [reflexivity|].
  cbn [append str_ltb]. now rewrite Nat.ltb_irrefl, Ascii.eqb_refl.
Qed.

(** X3. The order follows the canonical string and not [__eq__]: of two
    coordinates that are equal and differ in whether the extension is
    ["jar"], one is strictly below the other. *)
Theorem lt_separates_equal_coordinates (c1 c2 : GradleSpecifier.t) :
  __eq__ c1 c2 = true ->
  extension c1 = "jar" -> extension c2 <> "jar" ->
  __lt__ c1 c2 = true /\ __lt__ c2 c1 = false.
Proof.
  intros He H1 H2.
  pose proof (canonical_string_jar_below_other c1 c2 He H1 H2) as L.
  split; [exact L|]. now apply str_ltb_asym.
Qed.

Lemma lt_separates_equal_coordinates_witness :
  __lt__ (mk "g" "a" "1.0" "jar" None) (mk "g" "a" "1.0" "zip" None) = true
  /\ __lt__ (mk "g" "a" "1.0" "zip" None) (mk "g" "a" "1.0" "jar" None) = false.
Proof.
  apply (lt_separates_equal_coordinates
           (mk "g" "a" "1.0" "jar" None) (mk "g" "a" "1.0" "zip" None)).
  - reflexivity.
  - reflexivity.
  - discriminate.
Defined.

(** ** The canonical string as wire form *)

Lemma toString_drops_falsy_classifier (g a v e : string) (k : option string) :
  toString (mk g a v e (if PyStr.truthy k then k else None)) = toString (mk g a v e k).
Proof.
  unfold toString. cbn [group artifact version extension classifier].
  destruct k as [k|]; cbn [PyStr.truthy]; [|reflexivity].
  destruct (String.eqb k "") eqn:E; cbn [negb PyStr.truthy]; [reflexivity|].
  now rewrite E.
Qed.

(** X4. Decoding and encoding a coordinate field settles after one step:
    for every accepted string, the string that [unwrap] emits for the
    decoded coordinate is accepted again, and the coordinate decoded from
    it is a fixed point, emitted as that same string and decoded from it
    as itself. *)
Theorem wire_form_is_stable (s : string) (c : GradleSpecifier.t) :
  wrap s = inr c ->
  exists c', wrap (snd (unwrap c)) = inr c'
             /\ snd (unwrap c') = snd (unwrap c)
             /\ wrap (snd (unwrap c')) = inr c'.
Proof.
  unfold wrap, unwrap. cbn [snd]. intros Hinit.
  destruct (init_clean s c Hinit) as (Hf & Hk & He).
  pose proof (init_toString c Hf Hk He) as Hre.
  eexists. split; [exact Hre|].
  assert (E : toString (mk (group c) (artifact c) (version c) (extension c)
                           (if PyStr.truthy (classifier c) then classifier c else None))
              = toString c).
  { rewrite toString_drops_falsy_classifier. now destruct c. }
  split; [exact E|]. now rewrite E.
Qed.

Lemma wire_form_is_stable_witness :
  exists c', wrap (snd (unwrap (mk "g" "a" "1.0" "jar" (Some "")))) = inr c'
             /\ snd (unwrap c') = "g:a:1.0"
             /\ wrap (snd (unwrap c')) = inr c'.
Proof.
  exact (wire_form_is_stable "g:a:1.0:@jar" (mk "g" "a" "1.0" "jar" (Some "")) eq_refl).
Defined.

(** X5. The canonical string determines a parsed coordinate: two accepted
    inputs whose coordinates have the same canonical string agree on group,
    artifact, version and extension, and on the classifier as [toString]
    sees it (an empty classifier counting as none). *)
Theorem canonical_string_determines_fields (s1 s2 : string) (c1 c2 : GradleSpecifier.t) :
  __init__ s1 = inr c1 -> __init__ s2 = inr c2 ->
  toString c1 = toString c2 ->
  group c1 = group c2 /\ artifact c1 = artifact c2 /\ version c1 = version c2
  /\ extension c1 = extension c2
  /\ (if PyStr.truthy (classifier c1) then classifier c1 else None)
     = (if PyStr.truthy (classifier c2) then classifier c2 else None).
Proof.
  intros H1 H2 E.
  destruct (init_clean s1 c1 H1) as (Hf1 & Hk1 & He1).
  destruct (init_clean s2 c2 H2) as (Hf2 & Hk2 & He2).
  pose proof (init_toString c1 Hf1 Hk1 He1) as R1.
  pose proof (init_toString c2 Hf2 Hk2 He2) as R2.
  rewrite E, R2 in R1. injection R1 as -> -> -> -> ->. now repeat split.
Qed.

Lemma canonical_string_determines_fields_witness :
  extension (mk "g" "a" "1.0" "jar" (Some "")) = extension (mk "g" "a" "1.0" "jar" None)
  /\ (if PyStr.truthy (Some "") then Some "" else None)
     = (if PyStr.truthy None then None else None).
Proof.
  destruct (canonical_string_determines_fields "g:a:1.0:@jar" "g:a:1.0"
              (mk "g" "a" "1.0" "jar" (Some "")) (mk "g" "a" "1.0" "jar" None)
              eq_refl eq_refl eq_refl) as (_ & _ & _ & H4 & H5).
  split; [exact H4|exact H5].
Defined.

(** X6. What the constructor stores: the classifier is set exactly when
    there are exactly four segments, and is then the fourth one; it contains
    neither [:] nor [@]; and the extension contains no [@]. *)
Theorem init_classifier_and_extension (s : string) (c : GradleSpecifier.t) :
  __init__ s = inr c ->
  classifier c = (if Nat.eqb (length (segments s)) 4 then nth_error (segments s) 3
                  else None)
  /\ (forall k, classifier c = Some k ->
                PyStr.contains ":" k = false /\ PyStr.contains "@" k = false)
  /\ PyStr.contains "@" (extension c) = false
  /\ (PyStr.count "@" s <> 1 -> extension c = "jar").
Proof.
  intros Hinit. destruct (init_clean s c Hinit) as (_ & Hk & He).
  repeat split; try (now apply Hk); try exact He;
    rewrite init_cases in Hinit;
    destruct (segments s) as [|g [|a [|v rest]]]; try discriminate;
    injection Hinit as <-; cbn [classifier extension].
  - destruct rest as [|k [|k2 rest]]; reflexivity.
  - intros Hn. unfold extension_of. pose proof (split_length "@" s) as L.
    destruct (PyStr.split "@" s) as [|p0 [|p1 [|p2 r]]]; try reflexivity.
    simpl in L. lia.
Qed.

Lemma init_classifier_and_extension_witness :
  classifier (mk "g" "a" "1.0" "jar" (Some "dbg")) = Some "dbg"
  /\ extension (mk "g" "a" "1.0" "jar" (Some "dbg")) = "jar".
Proof.
  destruct (init_classifier_and_extension "g:a:1.0:dbg@zip@tar"
              (mk "g" "a" "1.0" "jar" (Some "dbg")) eq_refl) as (H1 & _ & _ & H4).
  split; [exact H1|]. apply H4. simpl. lia.
Defined.

(** X7. An [@extension] suffix touches the extension only: for [p] and [e]
    free of [@], [p@e] is accepted exactly when [p] is, and its coordinate
    is that of [p] with [e] as extension. *)
Theorem init_with_extension_suffix (p e : string) :
  PyStr.contains "@" p = false -> PyStr.contains "@" e = false ->
  (forall c, __init__ p = inr c ->
             extension c = "jar"
             /\ __init__ (p ++ "@" ++ e)
                = inr (mk (group c) (artifact c) (version c) e (classifier c)))
  /\ (__init__ p = inl IndexError -> __init__ (p ++ "@" ++ e) = inl IndexError).
Proof.
  intros Hp He.
  assert (Hseg : segments (p ++ "@" ++ e) = segments p).
  { unfold segments.
    rewrite (before_of_split "@" (p ++ "@" ++ e) p [e]), (before_clean _ _ Hp);
      [reflexivity|].
    change (p ++ "@" ++ e) with (p ++ String "@" e).
    now rewrite (split_app _ _ _ Hp), (split_clean _ _ He). }
  assert (Hext : extension_of (p ++ "@" ++ e) = e).
  { unfold extension_of. change (p ++ "@" ++ e) with (p ++ String "@" e).
    now rewrite (split_app _ _ _ Hp), (split_clean _ _ He). }
  rewrite !init_cases, Hseg, Hext, (extension_of_single _ Hp).
  destruct (segments p) as [|g [|a [|v rest]]]; split; try discriminate;
    try reflexivity.
  intros c [= <-]. split; reflexivity.
Qed.

Lemma init_with_extension_suffix_witness :
  __init__ "g:a:1.0:dbg@tar.gz" = inr (mk "g" "a" "1.0" "tar.gz" (Some "dbg"))
  /\ __init__ "g:a@zip" = inl IndexError.
Proof.
  split.
  - destruct (init_with_extension_suffix "g:a:1.0:dbg" "tar.gz" eq_refl eq_refl)
      as [H _].
    destruct (H (mk "g" "a" "1.0" "jar" (Some "dbg")) eq_refl) as [_ H2]. exact H2.
  - destruct (init_with_extension_suffix "g:a" "zip" eq_refl eq_refl) as [_ H].
    apply H. reflexivity.
Defined.

(** ** Hash and order of fully equal coordinates *)



(** ** Library families *)

(** X9. [isLwjgl] and [isLog4j] never hold together, and both take the same
    value on coordinates that are equal. *)
Theorem library_families_are_disjoint_and_respect_eq :
  (forall c, isLwjgl c && isLog4j c = false)
  /\ (forall c1 c2, __eq__ c1 c2 = true ->
                    isLwjgl c1 = isLwjgl c2 /\ isLog4j c1 = isLog4j c2).
Proof.
  split.
  - intros c. unfold isLwjgl, isLog4j.
    destruct (String.eqb (group c) "org.apache.logging.log4j") eqn:E.
    + apply String.eqb_eq in E. rewrite E. reflexivity.
    + apply andb_false_r.
  - intros c1 c2 He. apply eq_true_iff in He. destruct He as (Hg & _).
    unfold isLwjgl, isLog4j. now rewrite Hg.
Qed.

Lemma library_families_are_disjoint_and_respect_eq_witness :
  isLwjgl (mk "org.lwjgl" "lwjgl" "2.9.0" "jar" None)
  = isLwjgl (mk "org.lwjgl" "lwjgl" "2.9.0" "zip" None).
Proof.
  exact (proj1 (proj2 library_families_are_disjoint_and_respect_eq
                  (mk "org.lwjgl" "lwjgl" "2.9.0" "jar" None)
                  (mk "org.lwjgl" "lwjgl" "2.9.0" "zip" None) eq_refl)).
Defined.

(** ** Paths of equal coordinates *)

Lemma append_inv_l (a b c : string) : a ++ b = a ++ c -> b = c.
Proof.
  induction a as [|x a IH]; simpl; [trivial|]. intros [= H]. now apply IH.
Qed.

Lemma length_append (a b : string) :
  String.length (a ++ b) = String.length a + String.length b.
Proof. induction a as [|x a IH]; simpl; [reflexivity|now rewrite IH]. Qed.

Lemma append_inv_r (a b c : string) : a ++ c = b ++ c -> a = b.
Proof.
  revert b. induction a as [|x a IH]; intros [|y b] H; simpl in H.
  - reflexivity.
  - apply (f_equal String.length) in H. simpl in H. rewrite length_append in H. lia.
  - apply (f_equal String.length) in H. simpl in H. rewrite length_append in H. lia.
  - injection H as -> H. now rewrite (IH b H).
Qed.

Lemma getFilename_stem (c : GradleSpecifier.t) :
  getFilename c
  = (artifact c ++ "-" ++ version c ++ dash_classifier (classifier c) ++ ".")
      ++ extension c.
Proof.
  destruct c as [g a v e k]. unfold getFilename.
  cbn [artifact version extension classifier].
  destruct k as [k|]; cbn [PyStr.truthy dash_classifier];
    [destruct (String.eqb k "")|]; cbn [negb];
    repeat (rewrite append_assoc; cbn [append]); reflexivity.
Qed.

(** X10. Equal coordinates share their directory, and share their file
    name and their path exactly when they also agree on the extension. *)
Theorem paths_of_equal_coordinates (c1 c2 : GradleSpecifier.t) :
  __eq__ c1 c2 = true ->
  getBase c1 = getBase c2
  /\ (getFilename c1 = getFilename c2 <-> extension c1 = extension c2)
  /\ (getPath c1 = getPath c2 <-> extension c1 = extension c2).
Proof.
  intros He. apply eq_true_iff in He. destruct He as (Hg & Ha & Hv & Hk).
  assert (Hb : getBase c1 = getBase c2) by (unfold getBase; now rewrite Hg, Ha, Hv).
  assert (Hf : getFilename c1 = getFilename c2 <-> extension c1 = extension c2).
  { rewrite !getFilename_stem, Ha, Hv, Hk. split.
    - apply append_inv_l.
    - now intros ->. }
  split; [exact Hb|]. split; [exact Hf|].
  unfold getPath. rewrite Hb. split.
  - intros H. apply Hf. exact (append_inv_l _ _ _ H).
  - intros H. apply Hf in H. now rewrite H.
Qed.

Lemma paths_of_equal_coordinates_witness :
  getBase (mk "org.lwjgl" "lwjgl" "2.9.0" "jar" None)
  = getBase (mk "org.lwjgl" "lwjgl" "2.9.0" "zip" None).
Proof.
  exact (proj1 (paths_of_equal_coordinates
                  (mk "org.lwjgl" "lwjgl" "2.9.0" "jar" None)
                  (mk "org.lwjgl" "lwjgl" "2.9.0" "zip" None) eq_refl)).
Defined.

(** ** More on the format-version gates *)

Local Open Scope Z_scope.

Lemma format_d_inj (v1 v2 : Z) : PyStr.format_d v1 = PyStr.format_d v2 -> v1 = v2.
Proof.
  intros H. apply (f_equal read_d) in H. rewrite !read_format_d in H. congruence.
Qed.

(** X11. Both gates are downward closed (a version below an accepted one is
    accepted), and whatever the native gate accepts the upstream gate
    accepts as well. *)
Theorem gates_are_downward_closed (v v' : Z) :
  v <= v' ->
  (validateSupportedMojangVersion v' = inr tt -> validateSupportedMojangVersion v = inr tt)
  /\ (validateSupportedPolyMCVersion v' = inr tt ->
      validateSupportedPolyMCVersion v = inr tt
      /\ validateSupportedMojangVersion v = inr tt).
Proof.
  intros Hle.
  unfold validateSupportedMojangVersion, validateSupportedPolyMCVersion,
    CurrentPolyMCFormatVersion.
  destruct (Z.gtb_spec v' 21), (Z.gtb_spec v 21), (Z.gtb_spec v' 1), (Z.gtb_spec v 1);
    repeat split; try discriminate; try reflexivity; lia.
Qed.

Lemma gates_are_downward_closed_witness :
  validateSupportedPolyMCVersion 0 = inr tt /\ validateSupportedMojangVersion 0 = inr tt.
Proof.
  apply (proj2 (gates_are_downward_closed 0 1 ltac:(lia))). reflexivity.
Defined.

(** X12. The exception of a gate identifies the refused version: one gate
    raising the same exception for two versions was given the same version
    twice, and the two gates never raise the same exception. *)
Theorem gate_exception_identifies_version (v1 v2 : Z) (e : exn) :
  (validateSupportedMojangVersion v1 = inl e ->
   validateSupportedMojangVersion v2 = inl e -> v1 = v2)
  /\ (validateSupportedPolyMCVersion v1 = inl e ->
      validateSupportedPolyMCVersion v2 = inl e -> v1 = v2)
  /\ (validateSupportedMojangVersion v1 = inl e ->
      validateSupportedPolyMCVersion v2 = inl e -> False).
Proof.
  unfold validateSupportedMojangVersion, validateSupportedPolyMCVersion, raise, ret.
  destruct (v1 >? 21), (v2 >? 21), (v1 >? CurrentPolyMCFormatVersion),
    (v2 >? CurrentPolyMCFormatVersion);
    repeat split; try discriminate; intros H1 H2; rewrite <- H1 in H2;
    try (cbn [append] in H2; discriminate);
    injection H2 as H2; apply append_inv_r in H2;
    symmetry; now apply format_d_inj.
Qed.

Lemma gate_exception_identifies_version_witness :
  validateSupportedMojangVersion 22
  = inl (UnknownVersionException
           "Unsupported Mojang format version: 22. Max supported is: 21")
  /\ (validateSupportedPolyMCVersion 22
      = inl (UnknownVersionException
               "Unsupported Mojang format version: 22. Max supported is: 21") -> False).
Proof.
  split; [reflexivity|].
  apply (proj2 (proj2 (gate_exception_identifies_version 22 22
           (UnknownVersionException
              "Unsupported Mojang format version: 22. Max supported is: 21")))).
  reflexivity.
Defined.

Close Scope Z_scope.

(** ** More on loading and saving *)

Lemma package_json_path_inj (dir u1 u2 : string) :
  package_json_path dir u1 = package_json_path dir u2 -> u1 = u2.
Proof.
  unfold package_json_path. intros H.
  apply append_inv_l in H. cbn [append] in H. injection H as H.
  exact (append_inv_r _ _ _ H).
Qed.

(** X13. For a given data root, two uids have the same [package.json] path
    only when they are the same uid. *)
Theorem package_paths_are_distinct (dir u1 u2 : string) :
  package_json_path dir u1 = package_json_path dir u2 <-> u1 = u2.
Proof.
  split; [apply package_json_path_inj|now intros ->].
Qed.

(** X14. [write] handles [EnvironmentError] and nothing else: when the body
    of its [try] ends in any other way, with a result or with an exception
    of another class, [write] ends the same way in the same world, and
    prints nothing of its own. *)
Theorem write_is_transparent_otherwise (rt : Runtime) (PMC_DIR : string)
        (self : PolyMCSharedPackageData) (w w' : World) (r : result unit) :
  write_body rt PMC_DIR self w = (r, w') ->
  (forall e, r <> inl (EnvironmentError e)) ->
  write rt PMC_DIR self w = (r, w').
Proof.
  intros Hb Hr. unfold write, try_except_EnvironmentError. rewrite Hb.
  destruct r as [[| | e |] | []]; try reflexivity.
  now destruct (Hr e).
Qed.

Lemma write_is_transparent_otherwise_witness :
  write (mem_writer (fun _ => inl (OtherException "TypeError")))
        "/srv/polymc" example_package empty_world
  = (inl (OtherException "TypeError"),
     {| files := [("/srv/polymc/net.minecraft/package.json", "")]; stdout := [] |}).
Proof.
  apply (write_is_transparent_otherwise
           (mem_writer (fun _ => inl (OtherException "TypeError")))
           "/srv/polymc" example_package empty_world).
  - reflexivity.
  - discriminate.
Defined.

(** X15. [readSharedPackageData] has no handler: a failure to open the
    file, and a failure to decode its text once the file is closed again,
    reach the caller as they are; when nothing fails the decoded object is
    returned. *)
Theorem read_propagates_failures (rt : ReadRuntime) (PMC_DIR uid : string) (w : World) :
  (forall e w',
      open_r rt (package_json_path PMC_DIR uid) w = (inl e, w') ->
      readSharedPackageData rt PMC_DIR uid w = (inl e, w'))
  /\ (forall file text w1 w2 w3 r,
         open_r rt (package_json_path PMC_DIR uid) w = (inr file, w1) ->
         file_read rt file w1 = (inr text, w2) ->
         file_close_r rt file w2 = (inr tt, w3) ->
         load_package rt text = r ->
         readSharedPackageData rt PMC_DIR uid w = (r, w3)).
Proof.
  unfold readSharedPackageData, with_open_r, io_bind, io_lift, io_ret. split.
  - intros e w' H. now rewrite H.
  - intros file text w1 w2 w3 r Ho Hr Hc Hl. rewrite Ho, Hr, Hl.
    destruct r as [e|d]; now rewrite Hc.
Qed.

Lemma read_propagates_failures_witness :
  readSharedPackageData (mem_reader uid_loads) "/srv/polymc" "net.minecraft" empty_world
  = (inl (EnvironmentError
            "[Errno 2] No such file or directory: '/srv/polymc/net.minecraft/package.json'"),
     empty_world).
Proof.
  apply (proj1 (read_propagates_failures (mem_reader uid_loads) "/srv/polymc"
                  "net.minecraft" empty_world)).
  reflexivity.
Defined.

Lemma write_body_in_memory (dumps : PolyMCSharedPackageData -> result string)
      (dir : string) (d : PolyMCSharedPackageData) (w : World) :
  write_body (mem_writer dumps) dir d w
  = match dumps d with
    | inr text =>
        (inr tt,
         {| files := (package_json_path dir (uid d), text)
                       :: (package_json_path dir (uid d), "") :: files w;
            stdout := stdout w |})
    | inl e =>
        (inl e,
         {| files := (package_json_path dir (uid d), "") :: files w;
            stdout := stdout w |})
    end.
Proof.
  unfold write_body, with_open_w, io_bind, io_lift, io_ret, mem_writer.
  cbn [open_w file_write file_close dumps_sorted_indent4].
  destruct (dumps d) as [e|text]; [reflexivity|].
  cbn [files stdout lookup_file]. now rewrite String.eqb_refl.
Qed.

(** X16. Saving and loading through files in memory: when the encoder
    gives [text] for the object, [write] returns normally without printing,
    leaves [text] at the path of the object's uid and the file of every
    other uid as it was, and [readSharedPackageData] for that uid then
    returns whatever the decoder makes of [text]. *)
Theorem write_then_read_in_memory
        (dumps : PolyMCSharedPackageData -> result string)
        (loads : string -> result PolyMCSharedPackageData)
        (dir : string) (d : PolyMCSharedPackageData) (w : World) (text : string) :
  dumps d = inr text ->
  exists w1,
    write (mem_writer dumps) dir d w = (inr tt, w1)
    /\ stdout w1 = stdout w
    /\ lookup_file (package_json_path dir (uid d)) (files w1) = Some text
    /\ (forall u, u <> uid d ->
                  lookup_file (package_json_path dir u) (files w1)
                  = lookup_file (package_json_path dir u) (files w))
    /\ readSharedPackageData (mem_reader loads) dir (uid d) w1 = (loads text, w1).
Proof.
  intros Hd. eexists. split.
  - unfold write, try_except_EnvironmentError.
    rewrite write_body_in_memory, Hd. reflexivity.
  - cbn [files stdout]. repeat split.
    + cbn [lookup_file]. now rewrite String.eqb_refl.
    + intros u Hu. cbn [lookup_file].
      destruct (String.eqb_spec (package_json_path dir (uid d))
                                (package_json_path dir u)) as [E|_]; [|reflexivity].
      apply package_json_path_inj in E. congruence.
    + unfold readSharedPackageData, with_open_r, io_bind, io_lift, io_ret, mem_reader.
      cbn [open_r file_read file_close_r load_package files lookup_file].
      rewrite String.eqb_refl. cbn [files lookup_file].
      rewrite String.eqb_refl. now destruct (loads text).
Qed.

Lemma write_then_read_in_memory_witness :
  exists w1,
    write (mem_writer uid_dumps) "/srv/polymc" example_package empty_world = (inr tt, w1)
    /\ readSharedPackageData (mem_reader uid_loads) "/srv/polymc" "net.minecraft" w1
       = (inr example_package, w1).
Proof.
  destruct (write_then_read_in_memory uid_dumps uid_loads "/srv/polymc" example_package
              empty_world "net.minecraft" eq_refl) as (w1 & H1 & _ & _ & _ & H5).
  exists w1. split; [exact H1|exact H5].
Defined.



(** ** Printing *)

(** X18. [__repr__] shows the canonical string and nothing else: two
    coordinates print alike exactly when their canonical strings agree, so
    that equal coordinates that differ in the extension print differently
    as soon as one of the extensions is ["jar"]. *)
Theorem repr_shows_canonical_string (c1 c2 : GradleSpecifier.t) :
  (__repr__ c1 = __repr__ c2 <-> toString c1 = toString c2)
  /\ (__eq__ c1 c2 = true -> extension c1 = "jar" -> extension c2 <> "jar" ->
      __repr__ c1 <> __repr__ c2).
Proof.
  assert (R : __repr__ c1 = __repr__ c2 <-> toString c1 = toString c2).
  { unfold __repr__. split.
    - intros H. apply append_inv_l in H. exact (append_inv_r _ _ _ H).
    - now intros ->. }
  split; [exact R|].
  intros He H1 H2 Hr. apply R in Hr.
  pose proof (str_ltb_irrefl (toString c2)) as Hi.
  pose proof (canonical_string_jar_below_other c1 c2 He H1 H2) as L.
  rewrite Hr in L. congruence.
Qed.

Lemma repr_shows_canonical_string_witness :
  __repr__ (mk "g" "a" "1.0" "jar" None) <> __repr__ (mk "g" "a" "1.0" "zip" None).
Proof.
  apply (proj2 (repr_shows_canonical_string
                  (mk "g" "a" "1.0" "jar" None) (mk "g" "a" "1.0" "zip" None))).
  - reflexivity.
  - reflexivity.
  - discriminate.
Defined.
